(** * my-recipes-aws: the single-table recipe store and its request handlers

    A shallow embedding of the three request handlers of the repository
    (likeRecipe, getRecipe, getAllRecipes) over a model of the table declared
    in [cdk/lib/appStack.ts], and the properties of the storage design that
    hold, or fail, on that code.

    Layout:
    - [Js]      the JavaScript values the handlers compute with;
    - [Store]   the table: point read, scan, transactional write;
    - [LikeRecipe], [GetRecipe], [GetAllRecipes]   the handlers;
    - [Fixtures]   a JSON reader, a Like schema, a wire codec and table states
                   used to run the handlers on concrete requests. *)

From stdpp Require Import gmap strings list fin_maps pretty.
From Stdlib Require Import ZArith Ascii.

Local Set Warnings "-register-all".
Local Open Scope string_scope.

(* ===================================================================== *)
(** ** JavaScript values *)
(* ===================================================================== *)

Module Js.

(** The values a handler sees: the result of [JSON.parse], the attributes of
    an item, and [undefined] for a property that is not there.  Numbers are
    integers: the only number the handlers compute with is the [likeCount]
    counter and its increment [1]. *)
Inductive value : Type :=
  | VUndefined
  | VNull
  | VBool (b : bool)
  | VNum (n : Z)
  | VStr (s : string)
  | VArr (l : list value)
  | VObj (m : gmap string value).

(** An object: property name to value.  Items of the table are objects. *)
Abbreviation object := (gmap string value).

(** The faults of the store: a request that does not fit the table (an
    unknown table or index, a key that is not of the table's form), a
    transaction that is rejected, a service that does not answer. *)
Inductive fault : Type :=
  | InvalidRequest
  | TransactionAborted
  | Unavailable.

(** What a rejected promise or a [catch] clause carries. *)

Inductive error : Type :=
  | SyntaxError
  | TypeError
  | ZodError
  | StoreError (f : fault).

(** The result of running an [async] handler: the value it resolves with, or
    the exception it rejects with when nothing caught it. *)
Inductive outcome (R : Type) : Type :=
  | Returned (r : R)
  | Thrown (e : error).
Arguments Returned {R} r.
Arguments Thrown {R} e.

(** [`${v}`] and ["..." + v]: the string conversion of a template literal. *)
Fixpoint ToString (v : value) : string :=
  match v with
  | VUndefined => "undefined"
  | VNull => "null"
  | VBool b => if b then "true" else "false"
  | VNum n => pretty n
  | VStr s => s
  | VArr l =>
      (fix join (l : list value) : string :=
         match l with
         | [] => ""
         | x :: r =>
             (match x with VUndefined | VNull => "" | _ => ToString x end) +:+
             (match r with [] => "" | _ => "," +:+ join r end)
         end) l
  | VObj _ => "[object Object]"
  end.

(** [v.k] for a name [k] that no primitive wrapper and no array defines (the
    handlers read [recipeId] and [userName] only): a [TypeError] on [null]
    and [undefined], the own property of an object, [undefined] otherwise. *)
Definition member (v : value) (k : string) : error + value :=
  match v with
  | VUndefined | VNull => inl TypeError
  | VObj m => inr (default VUndefined (m !! k))
  | _ => inr VUndefined
  end.

Fixpoint chars (s : string) : list value :=
  match s with
  | EmptyString => []
  | String c r => VStr (String c EmptyString) :: chars r
  end.

Definition indexed (l : list value) : object :=
  list_to_map (imap (λ i x, (pretty i, x)) l).

(** [{...v}]: the own enumerable properties that a spread copies. *)
Definition own_props (v : value) : object :=
  match v with
  | VObj m => m
  | VStr s => indexed (chars s)
  | VArr l => indexed l
  | _ => ∅
  end.

(** [!s] for a string that may be [undefined]. *)
Definition falsy (s : option string) : bool :=
  match s with
  | None => true
  | Some s => bool_decide (s = "")
  end.

End Js.
Export Js.

(* ===================================================================== *)
(** ** The table *)
(* ===================================================================== *)

Module Store.

(** The managed store behind [config/db] is not under [src/].  Its table is
    the one declared as [MyRecipesTable] in [cdk/lib/appStack.ts]: a
    partition key [PK] and a sort key [SK], both strings, and two indexes,
    [GSI1_SK] on [SK] and [GSI2_TYPE] on [recordType] and [createdAt]. *)

Abbreviation item := (gmap string value).
Abbreviation key := (string * string)%type.

(** The primary key of an item: its [PK] and [SK] string attributes. *)
Definition key_of (i : item) : option key :=
  match i !! "PK", i !! "SK" with
  | Some (VStr p), Some (VStr s) => Some (p, s)
  | _, _ => None
  end.

(** A [Key] parameter matches the schema when it holds the two key
    attributes and nothing else. *)
Definition key_param (k : item) : option key :=
  if bool_decide (dom k = {["PK"; "SK"]}) then key_of k else None.

Definition has_key (k : key) (i : item) : bool :=
  bool_decide (key_of i = Some k).

Definition find_item (k : key) (l : list item) : option item :=
  List.find (has_key k) l.

(** Replace the item stored under [k], in place. *)
Fixpoint replace_item (k : key) (new : item) (l : list item) : list item :=
  match l with
  | [] => []
  | i :: r => if has_key k i then new :: r else i :: replace_item k new r
  end.

(** Whole-item write: overwrite the item with the same key, or add one. *)
Definition put_item (new : item) (l : list item) : option (list item) :=
  match key_of new with
  | None => None
  | Some k =>
      match find_item k l with
      | Some _ => Some (replace_item k new l)
      | None => Some (l ++ [new])%list
      end
  end.

(** ["SET target = source + operand"]. *)
Inductive update_expression : Type :=
  | SET_add (target source operand : string).

Record ScanCommandInput : Type := {
  scan_TableName : option string;
  IndexName : option string;
  ExclusiveStartKey : option item
}.

Record ScanCommandOutput : Type := {
  Items : list item;
  LastEvaluatedKey : option item
}.

Record GetCommandInput : Type := {
  get_TableName : option string;
  get_Key : item
}.

Record Update : Type := {
  upd_TableName : option string;
  upd_Key : item;
  UpdateExpression : update_expression;
  ExpressionAttributeValues : gmap string value
}.

Record Put : Type := {
  put_TableName : option string;
  put_Item : item
}.

Inductive transact_item : Type :=
  | TUpdate (u : Update)
  | TPut (p : Put).

Inductive command : Type :=
  | ScanCommand (i : ScanCommandInput)
  | GetCommand (i : GetCommandInput)
  | TransactWriteCommand (TransactItems : list transact_item).

(** Modelled from the spec: the Storage Engine of section 4.3, which is the
    managed store and not code under [src/].  The store as a handler
    invocation meets it: the table's name, its items in the order a table
    scan yields them, how many items a page holds, whether the service
    answers, and the commands received so far. *)
Record world : Type := {
  table_name : string;
  items : list item;
  page_limit : nat;
  online : bool;
  sent : list command
}.

Definition record (c : command) (w : world) : world :=
  {| table_name := table_name w; items := items w; page_limit := page_limit w;
     online := online w; sent := (sent w ++ [c])%list |}.

Definition with_items (l : list item) (w : world) : world :=
  {| table_name := table_name w; items := l; page_limit := page_limit w;
     online := online w; sent := sent w |}.

Definition names_table (w : world) (t : option string) : bool :=
  bool_decide (t = Some (table_name w)).

(** *** Point read *)

(** Modelled from the spec: [Get(key) -> item | NotFound] of section 4.3, a
    single point read; an absent item is an answer, not a fault.  The form
    of a key is the one [appStack.ts] declares. *)
Definition get_item (w : world) (i : GetCommandInput) : fault + option item :=
  if negb (online w) then inl Unavailable
  else if negb (names_table w (get_TableName i)) then inl InvalidRequest
  else match key_param (get_Key i) with
       | None => inl InvalidRequest
       | Some k => inr (find_item k (items w))
       end.

(** *** Scan *)

Definition str_attr (a : string) (i : item) : option string :=
  match i !! a with
  | Some (VStr s) => Some s
  | _ => None
  end.

(** Order of the record-type index: by [recordType], then [createdAt]. *)
Definition index_le (a b : item) : bool :=
  match str_attr "recordType" a, str_attr "recordType" b,
        str_attr "createdAt" a, str_attr "createdAt" b with
  | Some ta, Some tb, Some ca, Some cb =>
      match String.compare ta tb with
      | Lt => true
      | Gt => false
      | Eq => String.leb ca cb
      end
  | _, _, _, _ => true
  end.

Fixpoint insert_by (le : item → item → bool) (x : item) (l : list item) : list item :=
  match l with
  | [] => [x]
  | y :: r => if le x y then x :: l else y :: insert_by le x r
  end.

Definition sort_by (le : item → item → bool) (l : list item) : list item :=
  foldr (insert_by le) [] l.

Definition in_type_index (i : item) : bool :=
  match str_attr "recordType" i, str_attr "createdAt" i with
  | Some _, Some _ => true
  | _, _ => false
  end.

(** The sequence a scan walks: the table itself, or one of its indexes. *)
Definition scan_source (l : list item) (index : option string) : option (list item) :=
  match index with
  | None => Some l
  | Some n =>
      if bool_decide (n = "GSI2_TYPE") then Some (sort_by index_le (List.filter in_type_index l))
      else if bool_decide (n = "GSI1_SK") then Some l
      else None
  end.

Fixpoint after_key (k : key) (l : list item) : list item :=
  match l with
  | [] => []
  | i :: r => if has_key k i then r else after_key k r
  end.

Definition resume (start : option item) (l : list item) : option (list item) :=
  match start with
  | None => Some l
  | Some s => match key_of s with
              | Some k => Some (after_key k l)
              | None => None
              end
  end.

Definition key_item (i : item) : item :=
  match key_of i with
  | Some (p, s) => {["PK" := VStr p; "SK" := VStr s]}
  | None => ∅
  end.

Definition page (n : nat) (l : list item) : ScanCommandOutput :=
  {| Items := take n l;
     LastEvaluatedKey :=
       if bool_decide (n < length l)%nat then key_item <$> last (take n l) else None |}.

(** Modelled from the spec: the scan-like listing of section 4.3, a
    restartable sequence of items read from the table or through an index,
    one page at a time, with a continuation key while items remain. *)
Definition scan_items (w : world) (i : ScanCommandInput) : fault + ScanCommandOutput :=
  if negb (online w) then inl Unavailable
  else if negb (names_table w (scan_TableName i)) then inl InvalidRequest
  else match scan_source (items w) (IndexName i) with
       | None => inl InvalidRequest
       | Some l =>
           match resume (ExclusiveStartKey i) l with
           | None => inl InvalidRequest
           | Some rest => inr (page (page_limit w) rest)
           end
       end.

(** *** Transactional write *)

(** The counter update: the item must be there, under a key of the table's
    form, and hold a number to add to. *)
Definition apply_update (w : world) (u : Update) (l : list item) : option (list item) :=
  if negb (names_table w (upd_TableName u)) then None
  else match key_param (upd_Key u) with
       | None => None
       | Some k =>
           match find_item k l, UpdateExpression u with
           | Some i, SET_add target source operand =>
               match i !! source, ExpressionAttributeValues u !! operand with
               | Some (VNum a), Some (VNum b) =>
                   Some (replace_item k (<[target := VNum (a + b)]> i) l)
               | _, _ => None
               end
           | None, _ => None
           end
       end.

(** The unconditional put: the item must hold the two key attributes. *)
Definition apply_put (w : world) (p : Put) (l : list item) : option (list item) :=
  if negb (names_table w (put_TableName p)) then None
  else put_item (put_Item p) l.

Definition apply_item (w : world) (t : transact_item) (l : list item) : option (list item) :=
  match t with
  | TUpdate u => apply_update w u l
  | TPut p => apply_put w p l
  end.

(** All of the operations, in order, or none when one cannot be applied. *)
Fixpoint apply_all (w : world) (ts : list transact_item) (l : list item) : option (list item) :=
  match ts with
  | [] => Some l
  | t :: r =>
      match apply_item w t l with
      | None => None
      | Some l' => apply_all w r l'
      end
  end.

(** Modelled from the spec: [TransactWrite(operations) -> success |
    TransactionAborted] of section 4.3, the all-or-nothing application of a
    list of operations; an operation that cannot be applied rejects the
    whole transaction. *)
Definition transact_write (w : world) (ts : list transact_item) : fault + list item :=
  if negb (online w) then inl Unavailable
  else match apply_all w ts (items w) with
       | Some l => inr l
       | None => inl TransactionAborted
       end.

(** *** [client.send] *)

(** Every command sent is recorded, whatever its fate. *)
Definition send_get (i : GetCommandInput) (w : world) : (fault + option item) * world :=
  (get_item w i, record (GetCommand i) w).

Definition send_scan (i : ScanCommandInput) (w : world) : (fault + ScanCommandOutput) * world :=
  (scan_items w i, record (ScanCommand i) w).

(** A transaction that is rejected leaves the items as they were. *)
Definition send_transact (ts : list transact_item) (w : world) : (fault + unit) * world :=
  match transact_write w ts with
  | inl f => (inl f, record (TransactWriteCommand ts) w)
  | inr l' => (inr tt, record (TransactWriteCommand ts) (with_items l' w))
  end.

End Store.
Export Store.

(* ===================================================================== *)
(** ** The handlers *)
(* ===================================================================== *)

(** [process.env]. *)
Abbreviation environment := (gmap string string).

(** What a handler hands to [apiResponse(statusCode, message, data)]. *)
Inductive payload : Type :=
  | PNull
  | PItem (i : item)
  | POutput
  | PError (e : error).

(** [utils/response] is not under [src/]: a response is kept as the three
    arguments the handler builds it from. *)
Record api_response : Type := apiResponse {
  statusCode : Z;
  message : string;
  data : payload
}.

(** *** likeRecipe *)

Module LikeRecipe.

Record event : Type := { body : option string }.

Section Handler.

(** [JSON.parse] on a string: the parsed value, or [None] for the
    [SyntaxError] it throws on a text that is not JSON. *)
Variable JSON_parse : string → option value.

(** [Like.parse] of [schemas/like], which is not under [src/]: whether the
    candidate passes; a candidate that does not makes it throw. *)
Variable Like_parse : item → bool.

(** [event.body || {}], as [JSON.parse] reads its argument: an absent or
    empty body gives way to an object, which is converted to a string. *)
Definition body_text (ev : event) : string :=
  match body ev with
  | Some s => if bool_decide (s = "") then ToString (VObj ∅) else s
  | None => ToString (VObj ∅)
  end.

(** [{ PK: `LIKE#${body.recipeId}`, SK: `LIKE#${body.userName}`, ...body }]:
    the properties of [body] are copied last. *)
Definition newItem (body recipeId userName : value) : item :=
  own_props body ∪ {["PK" := VStr ("LIKE#" +:+ ToString recipeId);
                     "SK" := VStr ("LIKE#" +:+ ToString userName)]}.

Definition params (table : option string) (recipeId : value) (newItem : item)
  : list transact_item :=
  [ TUpdate {| upd_TableName := table;
               upd_Key := {["recipeId" := recipeId]};
               UpdateExpression := SET_add "likeCount" "likeCount" ":increment";
               ExpressionAttributeValues := {[":increment" := VNum 1]} |};
    TPut {| put_TableName := table; put_Item := newItem |} ].

(** The candidate item and the transaction of a parsed body; reading
    [body.recipeId] off [null] throws. *)
Definition prepare (table : option string) (b : value)
  : error + (item * list transact_item) :=
  match member b "recipeId", member b "userName" with
  | inr recipeId, inr userName =>
      let newItem := newItem b recipeId userName in
      inr (newItem, params table recipeId newItem)
  | inl e, _ | _, inl e => inl e
  end.

(** The [try] block and its [catch]. *)
Definition attempt (newItem : item) (params : list transact_item) (w : world)
  : api_response * world :=
  if Like_parse newItem then
    match send_transact params w with
    | (inr _, w') => (apiResponse 201 "Success: Like created" POutput, w')
    | (inl f, w') =>
        (apiResponse 500 "Error: Cannot create like" (PError (StoreError f)), w')
    end
  else (apiResponse 500 "Error: Cannot create like" (PError ZodError), w).

Definition handler (env : environment) (ev : event) (w : world)
  : outcome api_response * world :=
  match JSON_parse (body_text ev) with
  | None => (Thrown SyntaxError, w)
  | Some b =>
      match prepare (env !! "AWS_DYNAMODB_TABLE") b with
      | inl e => (Thrown e, w)
      | inr (newItem, params) =>
          let '(r, w') := attempt newItem params w in (Returned r, w')
      end
  end.

End Handler.

End LikeRecipe.

(** *** getRecipe *)

Module GetRecipe.

Record event : Type := { pathParameters : option (gmap string string) }.

Definition item (username id : string) : item :=
  {["PK" := VStr ("USER#" +:+ username); "SK" := VStr ("RECIPE#" +:+ id)]}.

Definition handler (env : environment) (ev : event) (w : world)
  : outcome api_response * world :=
  match pathParameters ev with
  | None => (Thrown TypeError, w)
  | Some p =>
      let id := p !! "id" in
      let username := p !! "username" in
      if falsy id || falsy username then
        (Returned (apiResponse 400 "Error: Invalid ID or username" PNull), w)
      else
        let getSingleRecipe :=
          {| get_TableName := env !! "AWS_DYNAMODB_TABLE";
             get_Key := item (default "" username) (default "" id) |} in
        match send_get getSingleRecipe w with
        | (inr None, w') =>
            (Returned (apiResponse 404 "Error: Item not found" PNull), w')
        | (inr (Some i), w') =>
            (Returned (apiResponse 200 "Success: Item retrieved" (PItem i)), w')
        | (inl f, w') =>
            (Returned (apiResponse 500 "Error: Item not retrieved"
                         (PError (StoreError f))), w')
        end
  end.

End GetRecipe.

(** *** getAllRecipes *)

Module GetAllRecipes.

(** The body before [JSON.stringify]: the success object with its three
    properties, or the plain text of the failure. *)
Inductive response_body (raw : Type) : Type :=
  | Listing (message : string) (data : list item) (Items : list raw)
  | Text (s : string).
Arguments Listing {raw} message data Items.
Arguments Text {raw} s.

Record response (raw : Type) : Type := {
  statusCode : Z;
  body : response_body raw
}.
Arguments statusCode {raw} r.
Arguments body {raw} r.

Section Handler.

(** [config/db] and [@aws-sdk/util-dynamodb] are not under [src/]: the form
    in which [dbClient] hands over a stored item, and [unmarshall], which
    decodes it or throws. *)
Context {raw : Type}.
Variable wire : item → raw.
Variable unmarshall : raw → option item.

Definition scan_all (env : environment) : ScanCommandInput :=
  {| scan_TableName := env !! "AWS_TABLE_NAME";
     IndexName := None;
     ExclusiveStartKey := None |}.

Definition server_error : response raw :=
  {| statusCode := 500; body := Text "Server Error" |}.

(** The event is not read. *)
Definition handler (env : environment) (_event : value) (w : world)
  : outcome (response raw) * world :=
  match send_scan (scan_all env) w with
  | (inr out, w') =>
      let Items := wire <$> Items out in
      match mapM unmarshall Items with
      | Some data =>
          (Returned {| statusCode := 200;
                       body := Listing "Successfully retrieved recipes" data Items |},
           w')
      | None => (Returned server_error, w')
      end
  | (inl _, w') => (Returned server_error, w')
  end.

End Handler.

End GetAllRecipes.

(* ===================================================================== *)
(** ** Fixtures: a JSON reader, a Like schema, a wire codec, table states *)
(* ===================================================================== *)

Module Fixtures.

(** *** A reader for JSON texts

    An instance for [JSON_parse]: objects, arrays, strings with the simple
    escapes, integer numerals and the three literals.  Texts outside that
    fragment (a fraction, an exponent, a [\u] escape) are not read. *)

Definition quote : Ascii.ascii := Ascii.ascii_of_nat 34.
Definition backslash : Ascii.ascii := Ascii.ascii_of_nat 92.

Definition is_ws (c : Ascii.ascii) : bool :=
  bool_decide (Ascii.nat_of_ascii c ∈ [32; 9; 10; 13]%nat).

Fixpoint skip_ws (s : string) : string :=
  match s with
  | String c r => if is_ws c then skip_ws r else s
  | EmptyString => EmptyString
  end.

Definition digit (c : Ascii.ascii) : option Z :=
  let n := Z.of_nat (Ascii.nat_of_ascii c) in
  if bool_decide (48 ≤ n ≤ 57)%Z then Some (n - 48)%Z else None.

Fixpoint read_digits (s : string) (acc : Z) : Z * string :=
  match s with
  | String c r =>
      match digit c with
      | Some d => read_digits r (10 * acc + d)%Z
      | None => (acc, s)
      end
  | EmptyString => (acc, s)
  end.

Definition unescape (c : Ascii.ascii) : option Ascii.ascii :=
  if bool_decide (c = quote) then Some quote
  else if bool_decide (c = backslash) then Some backslash
  else match c with
       | "/"%char => Some "/"%char
       | "n"%char => Some (Ascii.ascii_of_nat 10)
       | "r"%char => Some (Ascii.ascii_of_nat 13)
       | "t"%char => Some (Ascii.ascii_of_nat 9)
       | "b"%char => Some (Ascii.ascii_of_nat 8)
       | "f"%char => Some (Ascii.ascii_of_nat 12)
       | _ => None
       end.

(** The characters of a string literal, after its opening quote. *)
Fixpoint read_string (s : string) (acc : string) : option (string * string) :=
  match s with
  | EmptyString => None
  | String c r =>
      if bool_decide (c = quote) then Some (acc, r)
      else if bool_decide (c = backslash) then
        match r with
        | String e r' =>
            match unescape e with
            | Some c' => read_string r' (acc +:+ String c' EmptyString)
            | None => None
            end
        | EmptyString => None
        end
      else if bool_decide (Ascii.nat_of_ascii c < 32)%nat then None
      else read_string r (acc +:+ String c EmptyString)
  end.

Definition number_end (v : value) (r : string) : option (value * string) :=
  match r with
  | String "."%char _ | String "e"%char _ | String "E"%char _ => None
  | _ => Some (v, r)
  end.

Definition read_number (s : string) : option (value * string) :=
  match s with
  | String "-"%char (String d _ as r) =>
      match digit d with
      | Some _ => let '(n, r') := read_digits r 0 in number_end (VNum (- n)) r'
      | None => None
      end
  | String d _ =>
      match digit d with
      | Some _ => let '(n, r') := read_digits s 0 in number_end (VNum n) r'
      | None => None
      end
  | EmptyString => None
  end.

Definition read_literal (s : string) : option (value * string) :=
  match s with
  | String "n" (String "u" (String "l" (String "l" r))) => Some (VNull, r)
  | String "t" (String "r" (String "u" (String "e" r))) => Some (VBool true, r)
  | String "f" (String "a" (String "l" (String "s" (String "e" r)))) =>
      Some (VBool false, r)
  | _ => read_number s
  end.

Fixpoint read_value (fuel : nat) (s : string) : option (value * string) :=
  match fuel with
  | O => None
  | S fuel =>
      match skip_ws s with
      | String c r =>
          if bool_decide (c = quote) then
            match read_string r "" with
            | Some (t, r') => Some (VStr t, r')
            | None => None
            end
          else if bool_decide (c = "["%char) then
            match skip_ws r with
            | String "]" r' => Some (VArr [], r')
            | _ => read_elements fuel r []
            end
          else if bool_decide (c = "{"%char) then
            match skip_ws r with
            | String "}" r' => Some (VObj ∅, r')
            | _ => read_members fuel r ∅
            end
          else read_literal (String c r)
      | EmptyString => None
      end
  end
with read_elements (fuel : nat) (s : string) (acc : list value)
  : option (value * string) :=
  match fuel with
  | O => None
  | S fuel =>
      match read_value fuel s with
      | Some (v, r) =>
          match skip_ws r with
          | String "," r' => read_elements fuel r' (acc ++ [v])%list
          | String "]" r' => Some (VArr (acc ++ [v])%list, r')
          | _ => None
          end
      | None => None
      end
  end
with read_members (fuel : nat) (s : string) (acc : gmap string value)
  : option (value * string) :=
  match fuel with
  | O => None
  | S fuel =>
      match skip_ws s with
      | String c r =>
          if bool_decide (c = quote) then
            match read_string r "" with
            | Some (k, r1) =>
                match skip_ws r1 with
                | String ":" r2 =>
                    match read_value fuel r2 with
                    | Some (v, r3) =>
                        match skip_ws r3 with
                        | String "," r4 => read_members fuel r4 (<[k := v]> acc)
                        | String "}" r4 => Some (VObj (<[k := v]> acc), r4)
                        | _ => None
                        end
                    | None => None
                    end
                | _ => None
                end
            | None => None
            end
          else None
      | EmptyString => None
      end
  end.

Definition JSON_parse (s : string) : option value :=
  match read_value (2 * String.length s + 2) s with
  | Some (v, r) => if bool_decide (skip_ws r = "") then Some v else None
  | None => None
  end.

(** The text of a string literal and of an object of string properties. *)
Definition lit (s : string) : string :=
  String quote s +:+ String quote EmptyString.

Fixpoint fields (l : list (string * string)) : string :=
  match l with
  | [] => ""
  | [(k, v)] => lit k +:+ ":" +:+ lit v
  | (k, v) :: r => lit k +:+ ":" +:+ lit v +:+ "," +:+ fields r
  end.

Definition object_text (l : list (string * string)) : string :=
  "{" +:+ fields l +:+ "}".

(** *** A Like schema *)

Definition filled (a : string) (i : item) : bool :=
  match i !! a with
  | Some (VStr s) => negb (bool_decide (s = ""))
  | _ => false
  end.

(** Modelled from the spec: the Like entity of section 3 ([PK], [SK],
    [createdAt], [recordType] = LIKE) with the two identifiers the handler
    reads, each a non-empty string; [schemas/like] is not under [src/].
    Attributes the schema does not name are let through. *)
Definition Like_schema (i : item) : bool :=
  filled "PK" i && filled "SK" i && filled "recipeId" i && filled "userName" i
  && filled "createdAt" i && bool_decide (str_attr "recordType" i = Some "LIKE").

(** *** The wire form of an item

    An instance for [wire] and [unmarshall]: the typed attribute values in
    which the low-level client carries an item, and their decoding. *)

Inductive attr : Type :=
  | S (s : string)
  | N (n : Z)
  | BOOL (b : bool)
  | NULL
  | L (l : list attr)
  | M (m : gmap string attr).

Fixpoint convertToAttr (v : value) : attr :=
  match v with
  | VStr s => S s
  | VNum n => N n
  | VBool b => BOOL b
  | VNull | VUndefined => NULL
  | VArr l => L (convertToAttr <$> l)
  | VObj m => M (convertToAttr <$> m)
  end.

Fixpoint convertToNative (a : attr) : value :=
  match a with
  | S s => VStr s
  | N n => VNum n
  | BOOL b => VBool b
  | NULL => VNull
  | L l => VArr (convertToNative <$> l)
  | M m => VObj (convertToNative <$> m)
  end.

Definition marshall (i : item) : gmap string attr := convertToAttr <$> i.
Definition unmarshall (r : gmap string attr) : option item := Some (convertToNative <$> r).

(** *** Table states *)

Definition strs (l : list (string * string)) : item :=
  list_to_map (prod_map id VStr <$> l).

Definition alice : item :=
  strs [("PK", "USER#alice"); ("SK", "USER#alice"); ("recordType", "USER");
        ("createdAt", "2024-01-05T10:00:00Z"); ("username", "alice")].

Definition recipe (id created : string) (likes : Z) : item :=
  <["likeCount" := VNum likes]>
    (strs [("PK", "USER#alice"); ("SK", "RECIPE#" +:+ id); ("recordType", "RECIPE");
           ("createdAt", created); ("id", id); ("username", "alice")]).

Definition r1 : item := recipe "r1" "2024-03-01T09:00:00Z" 0.
Definition r2 : item := recipe "r2" "2024-02-01T09:00:00Z" 0.

(** One partition, its items in sort-key order. *)
Definition kitchen : world :=
  {| table_name := "MyRecipesTable";
     items := [r1; r2; alice];
     page_limit := 100;
     online := true;
     sent := [] |}.

(** The environment [appStack.ts] gives every handler. *)
Definition deployed : environment :=
  {["AWS_DYNAMODB_TABLE" := "MyRecipesTable"; "REGION" := "us-east-1"]}.

(** The same with the variable that getAllRecipes reads. *)
Definition listing_env : environment :=
  <["AWS_TABLE_NAME" := "MyRecipesTable"]> deployed.

Definition like_body (recipeId userName : string) : list (string * string) :=
  [("recipeId", recipeId); ("userName", userName);
   ("createdAt", "2024-03-02T12:00:00Z"); ("recordType", "LIKE")].

Definition like_event (l : list (string * string)) : LikeRecipe.event :=
  {| LikeRecipe.body := Some (object_text l) |}.

Definition likeRecipe := LikeRecipe.handler JSON_parse Like_schema.
Definition getAllRecipes := GetAllRecipes.handler marshall unmarshall.

(** A first like of recipe r1 by bob, and the key its Like item should get. *)
Definition first_like : LikeRecipe.event := like_event (like_body "r1" "bob").
Definition r1_key : key := ("USER#alice", "RECIPE#r1").
Definition like_key : key := ("LIKE#r1", "LIKE#bob").

(** The same request with two attributes more, named as the key attributes. *)
Definition forged_like : LikeRecipe.event :=
  like_event (like_body "r1" "bob" ++ [("PK", "LIKE#r2"); ("SK", "LIKE#carol")])%list.

(** A request that names the recipe and nothing else. *)
Definition bare_like : LikeRecipe.event :=
  like_event [("recipeId", "r1")].

(** Two calls, the second on the world the first one left. *)
Definition twice (ev : LikeRecipe.event) (w : world)
  : outcome api_response * outcome api_response * world :=
  let '(o1, w1) := likeRecipe deployed ev w in
  let '(o2, w2) := likeRecipe deployed ev w1 in
  (o1, o2, w2).

(** Path parameters of a getRecipe request. *)
Definition recipe_event (username id : string) : GetRecipe.event :=
  {| GetRecipe.pathParameters := Some {["username" := username; "id" := id]} |}.


End Fixtures.

(* ===================================================================== *)
(** ** The stack and the frontend's API slice *)
(* ===================================================================== *)

(** *** appStack: functions, grants and routes *)

Module AppStack.

(** The nine [NodejsFunction] constructs, by the constant that holds them. *)
Inductive function : Type :=
  | createRecipe
  | deleteRecipe
  | getRecipe
  | updateRecipe
  | getAllRecipes
  | getUser
  | createUser
  | deleteUser
  | updateUser.

#[global] Instance function_eq_dec : EqDecision function.
Proof. solve_decision. Defined.

Definition all_functions : list function :=
  [createRecipe; deleteRecipe; getRecipe; updateRecipe; getAllRecipes;
   getUser; createUser; deleteUser; updateUser].

Definition entry (f : function) : string :=
  match f with
  | createRecipe => "services/api/handlers/recipes/createRecipe.ts"
  | deleteRecipe => "services/api/handlers/recipes/deleteRecipe.ts"
  | getRecipe => "services/api/handlers/recipes/getRecipe.ts"
  | updateRecipe => "services/api/handlers/recipes/updateRecipe.ts"
  | getAllRecipes => "services/api/handlers/recipes/getAllRecipes.ts"
  | getUser => "services/api/handlers/users/getUser.ts"
  | createUser => "services/api/handlers/users/createUser.ts"
  | deleteUser => "services/api/handlers/users/deleteUser.ts"
  | updateUser => "services/api/handlers/users/updateUser.ts"
  end.

(** [nodeFunctionConfig.environment], shared by every function: the name of
    the table and the region of the stack. *)
Definition environment (tableName region : string) : environment :=
  {["AWS_DYNAMODB_TABLE" := tableName; "REGION" := region]}.

(** The calls of [appTable.grantReadWriteData], in order. *)
Definition grantReadWriteData : list function :=
  [createRecipe; deleteRecipe; getRecipe; updateRecipe; getAllRecipes].

(** A call of [addMethod]: the resource, as the path from the API root, the
    HTTP method, and the function behind the integration. *)
Record method : Type := {
  resource : list string;
  verb : string;
  integration : function
}.

Definition apiVersion : string := "v1".
Definition recipesWithUsername : list string := [apiVersion; "recipes"; "{username}"].
Definition recipeWithID : list string := (recipesWithUsername ++ ["{id}"])%list.
Definition usersWithUsername : list string := [apiVersion; "users"; "{username}"].

Definition methods : list method :=
  [ {| resource := recipesWithUsername; verb := "POST"; integration := createRecipe |};
    {| resource := recipesWithUsername; verb := "GET"; integration := getAllRecipes |};
    {| resource := recipeWithID; verb := "GET"; integration := getRecipe |};
    {| resource := recipeWithID; verb := "PATCH"; integration := updateRecipe |};
    {| resource := recipeWithID; verb := "DELETE"; integration := deleteRecipe |};
    {| resource := usersWithUsername; verb := "POST"; integration := createUser |};
    {| resource := usersWithUsername; verb := "GET"; integration := getUser |};
    {| resource := usersWithUsername; verb := "PATCH"; integration := updateUser |};
    {| resource := usersWithUsername; verb := "DELETE"; integration := deleteUser |} ].

Definition granted (f : function) : bool := bool_decide (f ∈ grantReadWriteData).

Definition route (m : method) : list string * string := (resource m, verb m).

End AppStack.

(** *** apiSlice: request headers and the todo endpoints *)

Module ApiSlice.

Definition apiKey : string := "".

(** A [Headers] object: names are case-insensitive and kept in lower case. *)
Abbreviation Headers := (gmap string string).

Definition lower_ascii (c : Ascii.ascii) : Ascii.ascii :=
  let n := Ascii.nat_of_ascii c in
  if bool_decide (65 ≤ n ≤ 90)%nat then Ascii.ascii_of_nat (n + 32) else c.

Fixpoint lower (s : string) : string :=
  match s with
  | EmptyString => EmptyString
  | String c r => String (lower_ascii c) (lower r)
  end.

Definition set (name value : string) (headers : Headers) : Headers :=
  <[lower name := value]> headers.

Definition get (name : string) (headers : Headers) : option string :=
  headers !! lower name.

Definition prepareHeaders (headers : Headers) : Headers :=
  set "X-API-KEY" apiKey (set "Content-Type" "application/json" headers).

(** What a [query] function returns: a URL, or the arguments of a request. *)
Record request : Type := {
  url : string;
  method : string;
  body : value
}.

Inductive query_result : Type :=
  | Url (u : string)
  | Args (r : request).

Definition getTodos (_arg : value) : query_result := Url "/todos".

Definition addTodo (todo : value) : query_result :=
  Args {| url := "/todos"; method := "POST"; body := todo |}.

(** [`/todos/${todo.id}`]; reading [id] off [null] or [undefined] throws. *)
Definition updateTodo (todo : value) : error + query_result :=
  match member todo "id" with
  | inl e => inl e
  | inr id =>
      inr (Args {| url := "/todos/" +:+ ToString id; method := "PATCH"; body := todo |})
  end.

(** [({ id }) => ...]: the argument is destructured, the body is the id. *)
Definition deleteTodo (arg : value) : error + query_result :=
  match member arg "id" with
  | inl e => inl e
  | inr id =>
      inr (Args {| url := "/todos/" +:+ ToString id; method := "DELETE"; body := id |})
  end.

End ApiSlice.

(* ===================================================================== *)
(** ** More requests and table states *)
(* ===================================================================== *)

Module Samples.

Import Fixtures.

(** A body that is the JSON text of [null], and one that is an empty object. *)
Definition null_like : LikeRecipe.event := {| LikeRecipe.body := Some "null" |}.
Definition empty_like : LikeRecipe.event := {| LikeRecipe.body := Some "{}" |}.

(** The kitchen while the service does not answer, and an empty table. *)
Definition closed_kitchen : world :=
  {| table_name := "MyRecipesTable";
     items := [r1; r2; alice];
     page_limit := 100;
     online := false;
     sent := [] |}.

Definition empty_table : world :=
  {| table_name := "MyRecipesTable";
     items := [];
     page_limit := 100;
     online := true;
     sent := [] |}.

(** A decoder that turns down an item without a [likeCount]. *)
Definition counted (i : item) : option item :=
  match i !! "likeCount" with
  | Some _ => Some i
  | None => None
  end.

Definition todo (id : Z) : value :=
  VObj {["id" := VNum id; "title" := VStr "shop"]}.

End Samples.

(* ===================================================================== *)
(** ** Observations on worlds and responses *)
(* ===================================================================== *)

(** The [likeCount] of the item stored under a key. *)
Definition likeCount (k : key) (w : world) : option Z :=
  match find_item k (items w) with
  | Some i => match i !! "likeCount" with
              | Some (VNum n) => Some n
              | _ => None
              end
  | None => None
  end.

Definition stored (k : key) (w : world) : bool :=
  bool_decide (is_Some (find_item k (items w))).


Definition created (l : list item) : list (option string) :=
  str_attr "createdAt" <$> l.


(** Whether a response hands the caught error object to the caller. *)
Definition carries_error (r : api_response) : bool :=
  match data r with
  | PError _ => true
  | _ => false
  end.

(** The store fault a response carries, if any. *)
Definition store_fault (r : api_response) : option fault :=
  match data r with
  | PError (StoreError f) => Some f
  | _ => None
  end.

Definition status {R : Type} (code : R → Z) (o : outcome R) : option Z :=
  match o with
  | Returned r => Some (code r)
  | Thrown _ => None
  end.

(* ===================================================================== *)
(** ** Properties of the store *)
(* ===================================================================== *)

Section StoreFacts.

Implicit Types (w : world) (l : list item) (k : key) (i : item).

Lemma key_of_pair (p s : string) :
  key_of {["PK" := VStr p; "SK" := VStr s]} = Some (p, s).
Proof. unfold key_of. by simplify_map_eq. Qed.

Lemma key_param_pair (p s : string) :
  key_param {["PK" := VStr p; "SK" := VStr s]} = Some (p, s).
Proof.
  unfold key_param. rewrite dom_insert_L, dom_singleton_L.
  rewrite bool_decide_eq_true_2 by set_solver. apply key_of_pair.
Qed.

(** A key parameter that names another attribute is not a key of the table. *)
Lemma key_param_foreign (a : string) (v : value) :
  a ≠ "PK" → key_param {[a := v]} = None.
Proof.
  intros Ha. unfold key_param. rewrite dom_singleton_L.
  case_bool_decide as H; [|done]. exfalso.
  assert (Hin : "PK" ∈ ({[a]} : gset string)) by (rewrite H; set_solver).
  apply elem_of_singleton in Hin. congruence.
Qed.

(** Sending a transaction records it, and nothing but it. *)
Lemma send_transact_sent ts w :
  sent (snd (send_transact ts w)) = (sent w ++ [TransactWriteCommand ts])%list.
Proof. unfold send_transact. by destruct (transact_write w ts). Qed.

(** A table scan that starts at the beginning yields the first page of the
    items, in the order they are stored. *)
Lemma scan_items_table w (t : option string) out :
  scan_items w {| scan_TableName := t; IndexName := None; ExclusiveStartKey := None |}
    = inr out →
  Items out = take (page_limit w) (items w).
Proof.
  unfold scan_items. destruct (online w); simpl; [|done].
  destruct (names_table w t); simpl; [|done]. by intros [= <-].
Qed.

End StoreFacts.

(** The engine commits a transaction whose update is keyed as the table is:
    the counter goes up by one and the item is added, together. *)
Example transact_write_commits :
  let like := Fixtures.strs [("PK", "LIKE#r1"); ("SK", "LIKE#bob")] in
  let ts :=
    [ TUpdate {| upd_TableName := Some "MyRecipesTable";
                 upd_Key := GetRecipe.item "alice" "r1";
                 UpdateExpression := SET_add "likeCount" "likeCount" ":increment";
                 ExpressionAttributeValues := {[":increment" := VNum 1]} |};
      TPut {| put_TableName := Some "MyRecipesTable"; put_Item := like |} ] in
  transact_write Fixtures.kitchen ts
  = inr [Fixtures.recipe "r1" "2024-03-01T09:00:00Z" 1; Fixtures.r2; Fixtures.alice; like].
Proof. vm_compute. reflexivity. Qed.

(* ===================================================================== *)
(** ** likeRecipe *)
(* ===================================================================== *)

Section LikeRecipeFacts.

Variable JSON_parse : string → option value.
Variable Like_parse : item → bool.

#[local] Abbreviation handler := (LikeRecipe.handler JSON_parse Like_parse).
#[local] Abbreviation attempt := (LikeRecipe.attempt Like_parse).

Lemma prepare_inr table b it ts :
  LikeRecipe.prepare table b = inr (it, ts) →
  ∃ recipeId userName,
    member b "recipeId" = inr recipeId ∧ member b "userName" = inr userName ∧
    it = LikeRecipe.newItem b recipeId userName ∧
    ts = LikeRecipe.params table recipeId it.
Proof.
  unfold LikeRecipe.prepare.
  destruct (member b "recipeId") as [e|r], (member b "userName") as [e'|u];
    intros [= <- <-]; eauto 6.
Qed.

(** The update of the transaction is keyed by [recipeId], which the table
    has no key attribute for: the engine rejects the transaction whatever
    the table holds. *)
Lemma params_rejected w table recipeId it :
  ∃ f, transact_write w (LikeRecipe.params table recipeId it) = inl f.
Proof.
  unfold transact_write. destruct (online w); simpl; [|eauto].
  unfold apply_update; simpl. destruct (names_table w table); simpl; [|eauto].
  rewrite key_param_foreign by done. eauto.
Qed.

Lemma attempt_prepared table b it ts w :
  LikeRecipe.prepare table b = inr (it, ts) →
  ∃ e c, attempt it ts w
         = (apiResponse 500 "Error: Cannot create like" (PError e),
            if Like_parse it then record c w else w).
Proof.
  intros (rid & un & _ & _ & -> & ->)%prepare_inr. unfold LikeRecipe.attempt.
  destruct (Like_parse _); [|by exists ZodError, (TransactWriteCommand [])].
  unfold send_transact.
  destruct (params_rejected w table rid (LikeRecipe.newItem b rid un)) as [f ->].
  eauto.
Qed.

(** No request makes the handler change the table, and none is answered
    with the 201 of a created Like. *)
Lemma handler_never_commits env ev w :
  items (snd (handler env ev w)) = items w ∧
  status statusCode (fst (handler env ev w)) ≠ Some 201%Z.
Proof.
  unfold LikeRecipe.handler. destruct (JSON_parse _) as [b|]; [|done].
  destruct (LikeRecipe.prepare _ b) as [e|[it ts]] eqn:Hp; [done|].
  destruct (attempt_prepared _ _ _ _ w Hp) as (e & c & ->). simpl.
  by destruct (Like_parse it).
Qed.

(** A body that defines neither [PK] nor [SK] gets the keys of its two
    identifiers. *)
Lemma newItem_key b recipeId userName :
  own_props b !! "PK" = None → own_props b !! "SK" = None →
  key_of (LikeRecipe.newItem b recipeId userName)
  = Some ("LIKE#" +:+ ToString recipeId, "LIKE#" +:+ ToString userName).
Proof.
  intros HP HS. unfold key_of, LikeRecipe.newItem.
  rewrite !lookup_union_r by done. by simplify_map_eq.
Qed.

(** A body that defines them keeps its own: the spread comes last. *)
Lemma newItem_key_overridden b recipeId userName (p s : string) :
  own_props b !! "PK" = Some (VStr p) → own_props b !! "SK" = Some (VStr s) →
  key_of (LikeRecipe.newItem b recipeId userName) = Some (p, s).
Proof.
  intros HP HS. unfold key_of, LikeRecipe.newItem.
  by rewrite !(lookup_union_Some_l _ _ _ _ HP), !(lookup_union_Some_l _ _ _ _ HS).
Qed.

(** A candidate that passes the schema is sent, in one transaction. *)
Lemma accepted_like_is_sent env ev w b it ts :
  JSON_parse (LikeRecipe.body_text ev) = Some b →
  LikeRecipe.prepare (env !! "AWS_DYNAMODB_TABLE") b = inr (it, ts) →
  Like_parse it = true →
  sent (snd (handler env ev w)) = (sent w ++ [TransactWriteCommand ts])%list.
Proof.
  intros Hb Hp Hv. unfold LikeRecipe.handler, LikeRecipe.attempt.
  rewrite Hb, Hp, Hv. rewrite <- send_transact_sent.
  by destruct (send_transact ts w) as [[f|[]] w'].
Qed.

(** A body that is the JSON text [null] parses, and reading [recipeId] off
    it throws outside the [try] block as well. *)
Lemma null_body_escapes env ev w :
  JSON_parse (LikeRecipe.body_text ev) = Some VNull →
  handler env ev w = (Thrown TypeError, w).
Proof. intros Hb. unfold LikeRecipe.handler. by rewrite Hb. Qed.

(** C7. Schema validation of the candidate Like comes before the write: when
    the candidate fails [Like.parse], the handler answers 500 with the
    validation error and the world is the one it started from -- no command
    has been sent to the store and the items are unchanged. *)
Theorem validation_precedes_write env ev w b it ts :
  JSON_parse (LikeRecipe.body_text ev) = Some b →
  LikeRecipe.prepare (env !! "AWS_DYNAMODB_TABLE") b = inr (it, ts) →
  Like_parse it = false →
  handler env ev w
  = (Returned (apiResponse 500 "Error: Cannot create like" (PError ZodError)), w)
  ∧ sent (snd (handler env ev w)) = sent w
  ∧ items (snd (handler env ev w)) = items w.
Proof.
  intros Hb Hp Hv.
  assert (handler env ev w
          = (Returned (apiResponse 500 "Error: Cannot create like" (PError ZodError)), w))
    as ->; [|done].
  unfold LikeRecipe.handler, LikeRecipe.attempt. by rewrite Hb, Hp, Hv.
Qed.

(** C10. An absent or empty body, or one that is not JSON, makes
    [JSON.parse] throw before the [try] block is entered: the handler
    rejects with the [SyntaxError] instead of returning a response, whatever
    the schema is, and the world is the one it started from -- nothing was
    validated, nothing was sent, nothing was written. *)
Theorem unparsable_body_escapes env ev w :
  JSON_parse "[object Object]" = None →
  (LikeRecipe.body ev = None ∨ LikeRecipe.body ev = Some ""
   ∨ ∃ s, LikeRecipe.body ev = Some s ∧ JSON_parse s = None) →
  handler env ev w = (Thrown SyntaxError, w).
Proof.
  intros Hobj Hbody. unfold LikeRecipe.handler.
  assert (JSON_parse (LikeRecipe.body_text ev) = None) as ->; [|done].
  unfold LikeRecipe.body_text.
  destruct Hbody as [-> | [-> | (s & -> & Hs)]]; [done..|].
  by case_bool_decide.
Qed.

End LikeRecipeFacts.

Section LikeRecipeRuns.

Import Fixtures.

(** C1. Recipe r1 exists with no like yet and the candidate passes the
    schema, yet the transaction of the first like is rejected by the engine
    (its update is keyed by [recipeId], not by [PK] and [SK]): the handler
    answers 500, the counter is still 0 and no Like item is stored. *)
Theorem first_like_is_rejected :
  likeCount r1_key kitchen = Some 0%Z ∧ stored like_key kitchen = false ∧
  (∃ b it ts, Fixtures.JSON_parse (LikeRecipe.body_text first_like) = Some b ∧
              LikeRecipe.prepare (deployed !! "AWS_DYNAMODB_TABLE") b = inr (it, ts) ∧
              Like_schema it = true ∧ key_of it = Some like_key) ∧
  fst (likeRecipe deployed first_like kitchen)
  = Returned (apiResponse 500 "Error: Cannot create like"
                (PError (StoreError TransactionAborted))) ∧
  likeCount r1_key (snd (likeRecipe deployed first_like kitchen)) = Some 0%Z ∧
  stored like_key (snd (likeRecipe deployed first_like kitchen)) = false.
Proof.
  split_and!; try by vm_compute.
  do 3 eexists. split_and!; [by vm_compute..].
Qed.

(** C2. The same like sent twice in sequence, from a state where recipe r1
    exists and the Like does not: both calls are answered 500 -- there is no
    success and no conflict among them -- and the counter of r1 has not gone
    up at all. *)
Theorem like_twice_never_succeeds :
  likeCount r1_key kitchen = Some 0%Z ∧ stored like_key kitchen = false ∧
  status statusCode (fst (fst (twice first_like kitchen))) = Some 500%Z ∧
  status statusCode (snd (fst (twice first_like kitchen))) = Some 500%Z ∧
  likeCount r1_key (snd (twice first_like kitchen)) = Some 0%Z ∧
  stored like_key (snd (twice first_like kitchen)) = false.
Proof. split_and!; by vm_compute. Qed.

(** C3. A body that passes the schema and carries attributes named [PK] and
    [SK]: the item the handler submits in the Put of its transaction is keyed
    by the body's values -- here as a like of recipe r2 by carol -- and not
    by LIKE#r1, LIKE#bob, the keys of its two identifiers. *)
Theorem forged_like_keeps_its_own_key :
  ∃ b it ts,
    Fixtures.JSON_parse (LikeRecipe.body_text forged_like) = Some b ∧
    member b "recipeId" = inr (VStr "r1") ∧ member b "userName" = inr (VStr "bob") ∧
    LikeRecipe.prepare (deployed !! "AWS_DYNAMODB_TABLE") b = inr (it, ts) ∧
    Like_schema it = true ∧
    key_of it = Some ("LIKE#r2", "LIKE#carol") ∧
    key_of it ≠ Some ("LIKE#" +:+ "r1", "LIKE#" +:+ "bob") ∧
    ts !! 1%nat = Some (TPut {| put_TableName := Some "MyRecipesTable"; put_Item := it |}) ∧
    sent (snd (likeRecipe deployed forged_like kitchen)) = [TransactWriteCommand ts].
Proof. do 3 eexists. split_and!; by vm_compute. Qed.

(** The schema turns the bare request down and nothing reaches the store. *)
Lemma validation_precedes_write_witness :
  likeRecipe deployed bare_like kitchen
  = (Returned (apiResponse 500 "Error: Cannot create like" (PError ZodError)), kitchen)
  ∧ sent (snd (likeRecipe deployed bare_like kitchen)) = sent kitchen
  ∧ items (snd (likeRecipe deployed bare_like kitchen)) = items kitchen.
Proof.
  eapply (validation_precedes_write Fixtures.JSON_parse Like_schema deployed
            bare_like kitchen); by vm_compute.
Defined.

(** A request without a body. *)
Lemma unparsable_body_escapes_witness :
  likeRecipe deployed {| LikeRecipe.body := None |} kitchen
  = (Thrown SyntaxError, kitchen).
Proof.
  apply (unparsable_body_escapes Fixtures.JSON_parse Like_schema deployed
           {| LikeRecipe.body := None |} kitchen).
  - by vm_compute.
  - by left.
Defined.

End LikeRecipeRuns.

(* ===================================================================== *)
(** ** getRecipe *)
(* ===================================================================== *)

Section GetRecipeFacts.

Import Fixtures.

Lemma falsy_filled (s : string) : s ≠ "" → falsy (Some s) = false.
Proof. intros H. unfold falsy. by rewrite bool_decide_eq_false_2. Qed.

(** C6, as amended. For a non-empty username and a non-empty id under which
    the table holds no item, on a store that answers and whose table the
    environment names, getRecipe answers 404 -- not 500 -- after exactly one
    point read, at the key PK = USER#username, SK = RECIPE#id. *)
Theorem getRecipe_absent_is_404 env w (p : gmap string string) (username id : string) :
  p !! "username" = Some username → p !! "id" = Some id →
  username ≠ "" → id ≠ "" →
  online w = true → env !! "AWS_DYNAMODB_TABLE" = Some (table_name w) →
  find_item ("USER#" +:+ username, "RECIPE#" +:+ id) (items w) = None →
  GetRecipe.handler env {| GetRecipe.pathParameters := Some p |} w
  = (Returned (apiResponse 404 "Error: Item not found" PNull),
     record (GetCommand
               {| get_TableName := Some (table_name w);
                  get_Key := {["PK" := VStr ("USER#" +:+ username);
                               "SK" := VStr ("RECIPE#" +:+ id)]} |}) w).
Proof.
  intros Hu Hi Hun Hid Hon Henv Habs. unfold GetRecipe.handler; simpl.
  rewrite Hu, Hi, !falsy_filled by done. simpl.
  unfold send_get, get_item, GetRecipe.item, names_table. rewrite Hon, Henv. simpl.
  rewrite bool_decide_eq_true_2 by done. simpl.
  by rewrite key_param_pair, Habs.
Qed.

(** Recipe r9 of alice was never created. *)
Lemma getRecipe_absent_is_404_witness :
  GetRecipe.handler deployed (recipe_event "alice" "r9") kitchen
  = (Returned (apiResponse 404 "Error: Item not found" PNull),
     record (GetCommand {| get_TableName := Some "MyRecipesTable";
                           get_Key := GetRecipe.item "alice" "r9" |}) kitchen).
Proof.
  apply (getRecipe_absent_is_404 deployed kitchen
           {["username" := "alice"; "id" := "r9"]} "alice" "r9");
    by vm_compute.
Defined.

(** C6 fails as stated: with an empty id, under which nothing was ever
    created, getRecipe answers 400, not 404, and reads nothing. *)
Lemma getRecipe_empty_id_is_400 :
  find_item ("USER#alice", "RECIPE#") (items kitchen) = None ∧
  GetRecipe.handler deployed (recipe_event "alice" "") kitchen
  = (Returned (apiResponse 400 "Error: Invalid ID or username" PNull), kitchen) ∧
  status statusCode (fst (GetRecipe.handler deployed (recipe_event "alice" "") kitchen))
  ≠ Some 404%Z.
Proof. split_and!; by vm_compute. Qed.

End GetRecipeFacts.

(* ===================================================================== *)
(** ** getAllRecipes *)
(* ===================================================================== *)

Section GetAllRecipesFacts.

Context {raw : Type}.
Variable wire : item → raw.
Variable unmarshall : raw → option item.

#[local] Abbreviation handler := (GetAllRecipes.handler wire unmarshall).


(** Without the variable it reads, the listing has no table to name. *)
Lemma listing_unconfigured env ev w :
  env !! "AWS_TABLE_NAME" = None →
  fst (handler env ev w) = Returned GetAllRecipes.server_error.
Proof.
  intros He. unfold GetAllRecipes.handler, send_scan, GetAllRecipes.scan_all.
  unfold scan_items, names_table. rewrite He. by destruct (online w).
Qed.

End GetAllRecipesFacts.

Section GetAllRecipesRuns.

Import Fixtures.



End GetAllRecipesRuns.

(* ===================================================================== *)
(** ** Failure responses *)
(* ===================================================================== *)

Section Failures.

Import Fixtures.

(** C8, as amended. Every response a handler returns is a success or one of
    a fixed set of failures: likeRecipe answers 500 [Error: Cannot create
    like]; getRecipe answers 400, 404 or 500, each with its fixed message;
    the listing answers 500 [Server Error].  The 500 of likeRecipe and of
    getRecipe carries the caught error as its data, the failure of the
    listing carries none. *)
Theorem failures_are_fixed_responses :
  (∀ JSON_parse Like_parse env ev w r,
     fst (LikeRecipe.handler JSON_parse Like_parse env ev w) = Returned r →
     statusCode r = 201%Z
     ∨ ∃ e, r = apiResponse 500 "Error: Cannot create like" (PError e)) ∧
  (∀ env ev w r,
     fst (GetRecipe.handler env ev w) = Returned r →
     statusCode r = 200%Z
     ∨ r = apiResponse 400 "Error: Invalid ID or username" PNull
     ∨ r = apiResponse 404 "Error: Item not found" PNull
     ∨ ∃ f, r = apiResponse 500 "Error: Item not retrieved" (PError (StoreError f))) ∧
  (∀ (raw : Type) (wire : item → raw) unmarshall env ev w r,
     fst (GetAllRecipes.handler wire unmarshall env ev w) = Returned r →
     GetAllRecipes.statusCode r = 200%Z
     ∨ r = GetAllRecipes.server_error).
Proof.
  split_and!.
  - intros JSON_parse Like_parse env ev w r. unfold LikeRecipe.handler.
    destruct (JSON_parse _) as [b|]; [|done].
    destruct (LikeRecipe.prepare _ b) as [e|[it ts]]; [done|].
    unfold LikeRecipe.attempt. destruct (Like_parse it).
    + destruct (send_transact ts w) as [[f|[]] w']; intros [= <-]; eauto.
    + intros [= <-]; eauto.
  - intros env ev w r. unfold GetRecipe.handler.
    destruct (GetRecipe.pathParameters ev) as [p|]; [|done].
    destruct (falsy (p !! "id") || falsy (p !! "username")).
    + intros [= <-]; auto.
    + destruct (send_get _ w) as [[f|[i|]] w']; intros [= <-]; eauto 6.
  - intros raw wire unmarshall env ev w r. unfold GetAllRecipes.handler.
    destruct (send_scan _ w) as [[f|out] w']; [intros [= <-]; auto|].
    destruct (mapM _ _); intros [= <-]; auto.
Qed.

Lemma failures_are_fixed_responses_witness :
  statusCode (apiResponse 500 "Error: Cannot create like"
                (PError (StoreError TransactionAborted))) = 201%Z
  ∨ ∃ e, apiResponse 500 "Error: Cannot create like"
           (PError (StoreError TransactionAborted))
         = apiResponse 500 "Error: Cannot create like" (PError e).
Proof.
  apply (proj1 failures_are_fixed_responses Fixtures.JSON_parse Like_schema
           deployed first_like kitchen).
  by vm_compute.
Defined.

(** C8 fails as stated. The failure of a first like hands the caller the
    fault the store raised; and a request the schema turns down is answered
    with the same status and message, the two being told apart by the error
    object alone. *)
Lemma like_failure_carries_store_fault :
  (∃ r, fst (likeRecipe deployed first_like kitchen) = Returned r ∧
        carries_error r = true ∧ store_fault r = Some TransactionAborted) ∧
  (∃ r r', fst (likeRecipe deployed first_like kitchen) = Returned r ∧
           fst (likeRecipe deployed bare_like kitchen) = Returned r' ∧
           statusCode r = statusCode r' ∧ message r = message r' ∧
           data r = PError (StoreError TransactionAborted) ∧
           data r' = PError ZodError).
Proof. split; [do 1 eexists | do 2 eexists]; split_and!; by vm_compute. Qed.

End Failures.

(* ===================================================================== *)
(** ** likeRecipe: the candidate item and what is sent *)
(* ===================================================================== *)

Section LikeRecipeMore.

Variable JSON_parse : string → option value.
Variable Like_parse : item → bool.

#[local] Abbreviation handler := (LikeRecipe.handler JSON_parse Like_parse).

(** The candidate item has the attributes of the body and the two key
    attributes, no others, and every attribute of the body keeps the value
    the body gave it. *)
Lemma newItem_carries_body b recipeId userName :
  dom (LikeRecipe.newItem b recipeId userName) = dom (own_props b) ∪ {["PK"; "SK"]}
  ∧ ∀ k v, own_props b !! k = Some v →
           LikeRecipe.newItem b recipeId userName !! k = Some v.
Proof.
  unfold LikeRecipe.newItem. split.
  - rewrite dom_union_L, dom_insert_L, dom_singleton_L. done.
  - intros k v Hk. by apply lookup_union_Some_l.
Qed.

(** Whatever the request, the handler leaves the world as it was or sends
    one command and no more: a transaction of two operations, the counter
    update keyed by the body's [recipeId] and the put of the candidate, in
    that order.  It never reads. *)
Lemma like_sends_one_transaction env ev w :
  snd (handler env ev w) = w
  ∨ ∃ b recipeId userName,
      JSON_parse (LikeRecipe.body_text ev) = Some b ∧
      member b "recipeId" = inr recipeId ∧ member b "userName" = inr userName ∧
      sent (snd (handler env ev w))
      = (sent w ++
         [TransactWriteCommand
            [ TUpdate {| upd_TableName := env !! "AWS_DYNAMODB_TABLE";
                         upd_Key := {["recipeId" := recipeId]};
                         UpdateExpression :=
                           SET_add "likeCount" "likeCount" ":increment";
                         ExpressionAttributeValues := {[":increment" := VNum 1]} |};
              TPut {| put_TableName := env !! "AWS_DYNAMODB_TABLE";
                      put_Item := LikeRecipe.newItem b recipeId userName |} ]])%list.
Proof.
  unfold LikeRecipe.handler.
  destruct (JSON_parse _) as [b|] eqn:Hb; [|by left].
  destruct (LikeRecipe.prepare _ b) as [e|[it ts]] eqn:Hp; [by left|].
  destruct (prepare_inr _ _ _ _ Hp) as (rid & un & Hr & Hu & -> & ->).
  unfold LikeRecipe.attempt. destruct (Like_parse _); [|by left].
  right. exists b, rid, un. split_and!; try done.
  rewrite <- send_transact_sent.
  by destruct (send_transact _ w) as [[f|[]] w'].
Qed.

(** An object body that names neither identifier is not turned down by the
    handler: its candidate is the body keyed by [LIKE#undefined] twice, and
    the counter update is keyed by an undefined [recipeId]. *)
Lemma nameless_like_is_keyed_undefined table (m : gmap string value) :
  m !! "recipeId" = None → m !! "userName" = None →
  m !! "PK" = None → m !! "SK" = None →
  ∃ it ts,
    LikeRecipe.prepare table (VObj m) = inr (it, ts) ∧
    key_of it = Some ("LIKE#undefined", "LIKE#undefined") ∧
    ts !! 0%nat
    = Some (TUpdate {| upd_TableName := table;
                       upd_Key := {["recipeId" := VUndefined]};
                       UpdateExpression := SET_add "likeCount" "likeCount" ":increment";
                       ExpressionAttributeValues := {[":increment" := VNum 1]} |}).
Proof.
  intros Hr Hu HP HS. unfold LikeRecipe.prepare; simpl. rewrite Hr, Hu; simpl.
  do 2 eexists. split_and!; [done| |done].
  unfold key_of, LikeRecipe.newItem; simpl.
  rewrite !lookup_union_r by done. by simplify_map_eq.
Qed.

End LikeRecipeMore.

Section LikeRecipeMoreRuns.

Import Fixtures Samples.

Lemma newItem_key_witness :
  key_of (LikeRecipe.newItem (VObj {["recipeId" := VStr "r1"; "userName" := VStr "bob"]})
            (VStr "r1") (VStr "bob"))
  = Some ("LIKE#" +:+ ToString (VStr "r1"), "LIKE#" +:+ ToString (VStr "bob")).
Proof. apply newItem_key; by vm_compute. Defined.

Lemma newItem_carries_body_witness :
  LikeRecipe.newItem (VObj {["recipeId" := VStr "r1"; "note" := VNum 7]})
    (VStr "r1") VUndefined !! "note" = Some (VNum 7).
Proof.
  apply (proj2 (newItem_carries_body
                  (VObj {["recipeId" := VStr "r1"; "note" := VNum 7]})
                  (VStr "r1") VUndefined)).
  by vm_compute.
Defined.

Lemma null_body_escapes_witness :
  likeRecipe deployed null_like kitchen = (Thrown TypeError, kitchen).
Proof.
  apply (null_body_escapes Fixtures.JSON_parse Like_schema deployed null_like kitchen).
  by vm_compute.
Defined.

Lemma nameless_like_is_keyed_undefined_witness :
  ∃ it ts,
    LikeRecipe.prepare (Some "MyRecipesTable") (VObj ∅) = inr (it, ts) ∧
    key_of it = Some ("LIKE#undefined", "LIKE#undefined") ∧
    ts !! 0%nat
    = Some (TUpdate {| upd_TableName := Some "MyRecipesTable";
                       upd_Key := {["recipeId" := VUndefined]};
                       UpdateExpression := SET_add "likeCount" "likeCount" ":increment";
                       ExpressionAttributeValues := {[":increment" := VNum 1]} |}).
Proof.
  apply (nameless_like_is_keyed_undefined (Some "MyRecipesTable") ∅); by vm_compute.
Defined.

End LikeRecipeMoreRuns.

(* ===================================================================== *)
(** ** getRecipe: the read and its answers *)
(* ===================================================================== *)

Section GetRecipeMore.

Implicit Types (p : gmap string string) (w : world).

(** The key of a recipe tells its owner and its id: two recipes share a key
    only when they are the same recipe of the same user. *)
Lemma recipe_key_inj (username id username' id' : string) :
  key_of (GetRecipe.item username id) = key_of (GetRecipe.item username' id') →
  username = username' ∧ id = id'.
Proof.
  unfold GetRecipe.item. rewrite !key_of_pair. intros [= Hu Hi]. by simplify_eq/=.
Qed.

(** A stored recipe is answered 200 with the item as the table holds it,
    after one point read at its key. *)
Lemma getRecipe_stored_is_200 env w p (username id : string) (i : item) :
  p !! "username" = Some username → p !! "id" = Some id →
  username ≠ "" → id ≠ "" →
  online w = true → env !! "AWS_DYNAMODB_TABLE" = Some (table_name w) →
  find_item ("USER#" +:+ username, "RECIPE#" +:+ id) (items w) = Some i →
  GetRecipe.handler env {| GetRecipe.pathParameters := Some p |} w
  = (Returned (apiResponse 200 "Success: Item retrieved" (PItem i)),
     record (GetCommand {| get_TableName := Some (table_name w);
                           get_Key := GetRecipe.item username id |}) w).
Proof.
  intros Hu Hi Hun Hid Hon Henv Hin. unfold GetRecipe.handler; simpl.
  rewrite Hu, Hi, !falsy_filled by done. simpl.
  unfold send_get, get_item, GetRecipe.item, names_table. rewrite Hon, Henv. simpl.
  rewrite bool_decide_eq_true_2 by done. simpl.
  by rewrite key_param_pair, Hin.
Qed.

(** A request whose id or username is missing or empty is answered 400 and
    nothing is sent to the store. *)
Lemma getRecipe_guard_is_400 env w p :
  p !! "id" = None ∨ p !! "id" = Some "" ∨
  p !! "username" = None ∨ p !! "username" = Some "" →
  GetRecipe.handler env {| GetRecipe.pathParameters := Some p |} w
  = (Returned (apiResponse 400 "Error: Invalid ID or username" PNull), w).
Proof.
  intros H. unfold GetRecipe.handler; simpl.
  assert (falsy (p !! "id") || falsy (p !! "username") = true) as ->; [|done].
  destruct H as [-> | [-> | [-> | ->]]]; simpl; try done;
    by rewrite orb_true_r.
Qed.

(** A fault of the store on a well-formed request -- the service does not
    answer, or the environment does not name the table -- is answered 500
    with that fault as data, after the one read was sent. *)
Lemma getRecipe_fault_is_500 env w p (username id : string) :
  p !! "username" = Some username → p !! "id" = Some id →
  username ≠ "" → id ≠ "" →
  online w = false ∨ env !! "AWS_DYNAMODB_TABLE" ≠ Some (table_name w) →
  ∃ f,
    GetRecipe.handler env {| GetRecipe.pathParameters := Some p |} w
    = (Returned (apiResponse 500 "Error: Item not retrieved" (PError (StoreError f))),
       record (GetCommand {| get_TableName := env !! "AWS_DYNAMODB_TABLE";
                             get_Key := GetRecipe.item username id |}) w).
Proof.
  intros Hu Hi Hun Hid Hbad. unfold GetRecipe.handler; simpl.
  rewrite Hu, Hi, !falsy_filled by done. simpl.
  unfold send_get, get_item, names_table.
  destruct (online w) eqn:Hon; simpl; [|by eexists].
  destruct Hbad as [?|Hne]; [done|].
  rewrite bool_decide_eq_false_2 by done. simpl. by eexists.
Qed.

(** getRecipe never writes: the items of the table are those it found.  It
    sends nothing, or one point read whose key is a recipe key built from a
    non-empty username and a non-empty id. *)
Lemma getRecipe_reads_once env ev w :
  items (snd (GetRecipe.handler env ev w)) = items w
  ∧ (sent (snd (GetRecipe.handler env ev w)) = sent w
     ∨ ∃ username id,
         username ≠ "" ∧ id ≠ "" ∧
         sent (snd (GetRecipe.handler env ev w))
         = (sent w ++ [GetCommand {| get_TableName := env !! "AWS_DYNAMODB_TABLE";
                                     get_Key := GetRecipe.item username id |}])%list).
Proof.
  unfold GetRecipe.handler.
  destruct (GetRecipe.pathParameters ev) as [p|]; [|by auto].
  destruct (p !! "id") as [id|] eqn:Hi; simpl; [|by auto].
  destruct (p !! "username") as [username|] eqn:Hu; simpl;
    [|rewrite orb_true_r; by auto].
  unfold falsy. case_bool_decide as Hid; simpl; [by auto|].
  case_bool_decide as Hun; simpl; [by auto|].
  unfold send_get.
  destruct (get_item w _) as [f|[i|]]; simpl; (split; [done|]);
    right; by exists username, id.
Qed.

End GetRecipeMore.

Section GetRecipeMoreRuns.

Import Fixtures Samples.

Lemma recipe_key_inj_witness : "alice" = "alice" ∧ "r1" = "r1".
Proof. apply (recipe_key_inj "alice" "r1" "alice" "r1"). reflexivity. Defined.

Lemma getRecipe_stored_is_200_witness :
  GetRecipe.handler deployed (recipe_event "alice" "r1") kitchen
  = (Returned (apiResponse 200 "Success: Item retrieved" (PItem r1)),
     record (GetCommand {| get_TableName := Some "MyRecipesTable";
                           get_Key := GetRecipe.item "alice" "r1" |}) kitchen).
Proof.
  apply (getRecipe_stored_is_200 deployed kitchen
           {["username" := "alice"; "id" := "r1"]} "alice" "r1" r1);
    by vm_compute.
Defined.

Lemma getRecipe_guard_is_400_witness :
  GetRecipe.handler deployed
    {| GetRecipe.pathParameters := Some {["id" := "r1"]} |} kitchen
  = (Returned (apiResponse 400 "Error: Invalid ID or username" PNull), kitchen).
Proof.
  apply (getRecipe_guard_is_400 deployed kitchen {["id" := "r1"]}).
  right; right; left. by vm_compute.
Defined.

Lemma getRecipe_fault_is_500_witness :
  ∃ f,
    GetRecipe.handler deployed (recipe_event "alice" "r1") closed_kitchen
    = (Returned (apiResponse 500 "Error: Item not retrieved" (PError (StoreError f))),
       record (GetCommand {| get_TableName := deployed !! "AWS_DYNAMODB_TABLE";
                             get_Key := GetRecipe.item "alice" "r1" |}) closed_kitchen).
Proof.
  apply (getRecipe_fault_is_500 deployed closed_kitchen
           {["username" := "alice"; "id" := "r1"]} "alice" "r1");
    try by vm_compute.
  by left.
Defined.

End GetRecipeMoreRuns.

(* ===================================================================== *)
(** ** getAllRecipes: decoding, and the stack's environment *)
(* ===================================================================== *)

Section GetAllRecipesMore.

Context {raw : Type}.
Variable wire : item → raw.
Variable unmarshall : raw → option item.

#[local] Abbreviation handler := (GetAllRecipes.handler wire unmarshall).

(** The handler, step by step: the scan, then the decoding of its page. *)
Lemma listing_steps env ev w :
  handler env ev w
  = (match scan_items w (GetAllRecipes.scan_all env) with
     | inr out =>
         match mapM unmarshall (wire <$> Items out) with
         | Some data =>
             Returned {| GetAllRecipes.statusCode := 200;
                         GetAllRecipes.body :=
                           GetAllRecipes.Listing "Successfully retrieved recipes"
                             data (wire <$> Items out) |}
         | None => Returned GetAllRecipes.server_error
         end
     | inl _ => Returned GetAllRecipes.server_error
     end,
     record (ScanCommand (GetAllRecipes.scan_all env)) w).
Proof.
  unfold GetAllRecipes.handler, send_scan.
  destruct (scan_items w _) as [f|out]; [done|]. by destruct (mapM _ _).
Qed.

(** Under the environment the stack gives its functions, the listing has no
    table to name (the stack sets [AWS_DYNAMODB_TABLE], the handler reads
    [AWS_TABLE_NAME]): it answers 500 [Server Error] whatever the table
    holds, and the table is left as it was. *)
Lemma listing_fails_as_deployed (tableName region : string) ev w :
  fst (handler (AppStack.environment tableName region) ev w)
  = Returned GetAllRecipes.server_error
  ∧ items (snd (handler (AppStack.environment tableName region) ev w)) = items w.
Proof.
  split.
  - apply listing_unconfigured. unfold AppStack.environment. by simplify_map_eq.
  - by rewrite listing_steps.
Qed.

(** One item of the page that does not decode fails the whole listing: the
    answer is 500 [Server Error], not a shorter list. *)
Lemma listing_decodes_all_or_nothing env ev w (i : item) :
  i ∈ take (page_limit w) (items w) → unmarshall (wire i) = None →
  fst (handler env ev w) = Returned GetAllRecipes.server_error.
Proof.
  intros Hin Hnone. rewrite listing_steps. simpl.
  destruct (scan_items w _) as [f|out] eqn:Hs; [done|].
  apply scan_items_table in Hs.
  destruct (mapM _ _) as [data|] eqn:Hm; [|done].
  exfalso. apply mapM_Some_1 in Hm.
  assert (Hw : wire i ∈ wire <$> Items out)
    by (rewrite Hs; by apply list_elem_of_fmap_2).
  apply list_elem_of_lookup in Hw as [n Hn].
  destruct (Forall2_lookup_l _ _ _ _ _ Hm Hn) as (d & _ & Hd). congruence.
Qed.


(** An empty table, when the store answers and the environment names it, is
    listed as 200 with no items. *)
Lemma listing_of_empty_table env ev w :
  online w = true → env !! "AWS_TABLE_NAME" = Some (table_name w) →
  items w = [] →
  fst (handler env ev w)
  = Returned {| GetAllRecipes.statusCode := 200;
                GetAllRecipes.body :=
                  GetAllRecipes.Listing "Successfully retrieved recipes" [] [] |}.
Proof.
  intros Hon Henv Hempty.
  unfold GetAllRecipes.handler, send_scan, scan_items, GetAllRecipes.scan_all,
    names_table; simpl.
  rewrite Hon, Henv, Hempty. simpl. rewrite bool_decide_eq_true_2 by done. simpl.
  by rewrite take_nil.
Qed.

End GetAllRecipesMore.

Section GetAllRecipesMoreRuns.

Import Fixtures Samples.

(** The user record of alice has no [likeCount]. *)
Lemma listing_decodes_all_or_nothing_witness :
  fst (GetAllRecipes.handler id counted listing_env VNull kitchen)
  = Returned GetAllRecipes.server_error.
Proof.
  apply (listing_decodes_all_or_nothing id counted listing_env VNull kitchen alice).
  - vm_compute. do 2 apply list_elem_of_further. apply list_elem_of_here.
  - by vm_compute.
Defined.


Lemma listing_of_empty_table_witness :
  fst (getAllRecipes listing_env VNull empty_table)
  = Returned {| GetAllRecipes.statusCode := 200;
                GetAllRecipes.body :=
                  GetAllRecipes.Listing "Successfully retrieved recipes" [] [] |}.
Proof.
  apply (listing_of_empty_table marshall Fixtures.unmarshall listing_env VNull
           empty_table); by vm_compute.
Defined.

End GetAllRecipesMoreRuns.

(* ===================================================================== *)
(** ** apiSlice: headers and todo URLs *)
(* ===================================================================== *)

Section ApiSliceFacts.

Import ApiSlice.

Implicit Types (headers : Headers) (name : string).

(** After [prepareHeaders] the content type is JSON and the API key header is
    the (empty) key, under whatever capitalisation they are asked for or had
    been set before; every other header is as the caller left it. *)
Lemma prepareHeaders_sets_two headers :
  (∀ name, lower name = "content-type" →
           get name (prepareHeaders headers) = Some "application/json")
  ∧ (∀ name, lower name = "x-api-key" →
             get name (prepareHeaders headers) = Some "")
  ∧ (∀ name, lower name ≠ "content-type" → lower name ≠ "x-api-key" →
             get name (prepareHeaders headers) = get name headers).
Proof.
  unfold prepareHeaders, set, get, apiKey.
  change (lower "X-API-KEY") with "x-api-key".
  change (lower "Content-Type") with "content-type".
  split_and!; intros name.
  - intros ->. by simplify_map_eq.
  - intros ->. by simplify_map_eq.
  - intros H1 H2. by rewrite !lookup_insert_ne.
Qed.

(** Preparing headers twice is preparing them once. *)
Lemma prepareHeaders_idempotent headers :
  prepareHeaders (prepareHeaders headers) = prepareHeaders headers.
Proof.
  unfold prepareHeaders, set.
  change (lower "X-API-KEY") with "x-api-key".
  change (lower "Content-Type") with "content-type".
  apply map_eq. intros k.
  destruct (decide (k = "x-api-key")) as [->|]; [by simplify_map_eq|].
  destruct (decide (k = "content-type")) as [->|]; by simplify_map_eq.
Qed.


(** Updating and deleting a todo go to the same URL; the update carries the
    whole todo, the delete its id alone. *)
Lemma deleteTodo_matches_updateTodo (todo : value) r :
  updateTodo todo = inr (Args r) →
  ∃ id, member todo "id" = inr id ∧
        deleteTodo todo
        = inr (Args {| url := url r; method := "DELETE"; body := id |})
        ∧ method r = "PATCH" ∧ body r = todo.
Proof.
  unfold updateTodo, deleteTodo.
  destruct (member todo "id") as [e|id]; [done|]. intros [= <-]. eauto.
Qed.

(** A todo object that has no [id] is not turned down: its update is
    addressed at [/todos/undefined], and so is its deletion. *)
Lemma updateTodo_without_id (m : gmap string value) :
  m !! "id" = None →
  updateTodo (VObj m)
  = inr (Args {| url := "/todos/undefined"; method := "PATCH"; body := VObj m |})
  ∧ deleteTodo (VObj m)
    = inr (Args {| url := "/todos/undefined"; method := "DELETE"; body := VUndefined |}).
Proof. intros H. unfold updateTodo, deleteTodo, member. by rewrite H. Qed.

End ApiSliceFacts.

Section ApiSliceRuns.

Import ApiSlice Samples.

Lemma prepareHeaders_sets_two_witness :
  get "CONTENT-TYPE" (prepareHeaders (set "content-type" "text/plain" ∅))
  = Some "application/json".
Proof.
  apply (proj1 (prepareHeaders_sets_two (set "content-type" "text/plain" ∅))).
  by vm_compute.
Defined.


Lemma deleteTodo_matches_updateTodo_witness :
  ∃ id, member (todo 7) "id" = inr id ∧
        deleteTodo (todo 7)
        = inr (Args {| url := "/todos/7"; method := "DELETE"; body := id |})
        ∧ "PATCH" = "PATCH" ∧ todo 7 = todo 7.
Proof.
  apply (deleteTodo_matches_updateTodo (todo 7)
           {| url := "/todos/7"; method := "PATCH"; body := todo 7 |}).
  by vm_compute.
Defined.

Lemma updateTodo_without_id_witness :
  updateTodo (VObj ∅)
  = inr (Args {| url := "/todos/undefined"; method := "PATCH"; body := VObj ∅ |})
  ∧ deleteTodo (VObj ∅)
    = inr (Args {| url := "/todos/undefined"; method := "DELETE"; body := VUndefined |}).
Proof. apply (updateTodo_without_id ∅). by vm_compute. Defined.

End ApiSliceRuns.

(* ===================================================================== *)
(** ** appStack: routes, functions and grants *)
(* ===================================================================== *)

Section AppStackFacts.

Import AppStack.

(** A route is backed by a function that was granted access to the table
    exactly when it is a route under [recipes]: no function behind a route
    under [users] has a grant. *)
Lemma grants_follow_recipes (m : method) :
  m ∈ methods →
  granted (integration m) = bool_decide (resource m !! 1%nat = Some "recipes").
Proof.
  unfold methods. intros Hm.
  repeat (apply elem_of_cons in Hm as [-> | Hm]; [by vm_compute|]).
  by apply elem_of_nil in Hm.
Qed.

(** Every function of the stack is behind one route and one only, and no
    two routes share a resource and a method. *)
Lemma routes_and_functions_match :
  NoDup (route <$> methods) ∧ NoDup (integration <$> methods)
  ∧ ∀ f : function, f ∈ integration <$> methods.
Proof.
  split_and!.
  - apply (bool_decide_unpack _). by vm_compute.
  - apply (bool_decide_unpack _). by vm_compute.
  - intros f. apply (bool_decide_unpack _). by destruct f; vm_compute.
Qed.

Lemma grants_follow_recipes_witness :
  granted getUser = bool_decide (usersWithUsername !! 1%nat = Some "recipes").
Proof.
  apply (grants_follow_recipes
           {| resource := usersWithUsername; verb := "GET"; integration := getUser |}).
  unfold methods. do 6 apply list_elem_of_further. apply list_elem_of_here.
Defined.

End AppStackFacts.
